(** * Boot-time bootloader check of the KeepKey firmware

    A shallow embedding of [keepkey/local/baremetal/check_bootloader.c]:
    the digest classifier [check_bootloader_kind], the flash hot-patcher
    [apply_hotpatch] and the boot gate [check_bootloader], together with
    the properties the design document states about them.

    The C file talks to the board through functions it only declares
    (digest source, flash controller, display, halt).  They are kept
    abstract here, as the fields of the class [Board]; everything that is
    proved about the three functions holds for every board. *)

From Stdlib Require Import ZArith String List Bool Lia.
From Stdlib Require Import Strings.Byte.
Import ListNotations.

Local Open Scope Z_scope.

(** ** Bytes and [memcmp] *)

(** The value of a byte read as [unsigned char]. *)
Definition uchar (b : byte) : Z := Z.of_N (Byte.to_N b).

(** [memcmp s1 s2 n]: the difference of the first pair of bytes that
    differ among the first [n], both read as [unsigned char]; [0] when
    there is none.  Every call of the program passes buffers that hold at
    least [n] bytes; a byte past the end of a list reads as [x00]. *)
Fixpoint memcmp (s1 s2 : list byte) (n : nat) : Z :=
  match n with
  | O => 0
  | S n' =>
      let c1 := hd x00 s1 in
      let c2 := hd x00 s2 in
      if uchar c1 =? uchar c2
      then memcmp (tl s1) (tl s2) n'
      else uchar c1 - uchar c2
  end.

(** ** [enum BL_Kind]

    A C enumeration is an integer type: the three enumerators are three
    values of it, and a variable of the type can hold others. *)
Definition BL_Kind := Z.

Definition BL_UNKNOWN : BL_Kind := 0x0.
Definition BL_HOTPATCHABLE : BL_Kind := 0xa1f35c78.
Definition BL_PATCH_APPLIED : BL_Kind := 0x95c3a027.

(** ** The digests the classifier compares against

    One definition per string literal of [check_bootloader_kind], in the
    order of the source. *)

(* v1.0.0, fixed *)
Definition bl_v1_0_0_fixed : list byte :=
  [xf1; x3c; xe2; x28; xc0; xbb; x2b; xdb; xc5; x6b; xdc; xb5; xf4; x56; x93; x67;
   xf8; xe3; x01; x10; x74; xcc; xc6; x33; x31; x34; x8d; xeb; x49; x8f; x2d; x8f].

(* v1.0.1, fixed *)
Definition bl_v1_0_1_fixed : list byte :=
  [xec; x61; x88; x36; xf8; x64; x23; xdb; xd3; x11; x4c; x37; xd6; xe3; xe4; xff;
   xdf; xb8; x7d; x9e; x4c; x61; x99; xcf; x3e; x16; x3a; x67; xb2; x74; x98; xa2].

(* v1.0.3, fixed *)
Definition bl_v1_0_3_fixed : list byte :=
  [x4f; x9c; x38; xc1; xcd; x06; xf5; x9e; x8d; x4d; xe8; xe0; xd3; x1c; xdd; x34;
   xc8; x31; x44; xd2; xdf; x55; x0c; x41; x2e; x00; x2b; x4b; x35; xbd; x4f; xb3].

(* v1.0.3_signed, fixed *)
Definition bl_v1_0_3_signed_fixed : list byte :=
  [x91; x7d; x19; x52; x26; x0c; x9b; x89; xf3; xa9; x6b; xea; x07; xee; xa4; x07;
   x4a; xfd; xcc; x0e; x8c; xdd; x5d; x06; x4e; x36; x86; x8b; xdd; x68; xba; x7d].

(* v1.0.4, fixed - SALT whitelabel *)
Definition bl_v1_0_4_fixed : list byte :=
  [xfc; x4e; x5c; x4d; xc2; xe5; x12; x7b; x68; x14; xa3; xf6; x94; x24; xc9; x36;
   xf1; xdc; x24; x1d; x1d; xaf; x2c; x5a; x2d; x8f; x07; x28; xeb; x69; xd2; x0d].

(* v1.0.0, unpatched *)
Definition bl_v1_0_0_unpatched : list byte :=
  [x63; x97; xc4; x46; xf6; xb9; x00; x2a; x8b; x15; x0b; xf4; xb9; xb4; xe0; xbb;
   x66; x80; x0e; xd0; x99; xb8; x81; xca; x49; x70; x01; x39; xb0; x55; x9f; x10].

(* v1.0.1, unpatched *)
Definition bl_v1_0_1_unpatched : list byte :=
  [xd5; x44; xb5; xe0; x6b; x0c; x35; x5d; x68; xb8; x68; xac; x75; x80; xe9; xba;
   xb2; xd2; x24; xa1; xe2; x44; x08; x81; xcc; x1b; xca; x2b; x81; x67; x52; xd5].

(* v1.0.3, unpatched *)
Definition bl_v1_0_3_unpatched : list byte :=
  [x5a; xa5; x5e; x69; xf1; xd9; xaa; x50; x4d; xe6; x0f; xaf; x22; xbe; x93; xcb;
   xd0; x3b; x13; x73; x2d; xcb; x07; xbb; xc0; xb7; xf9; x1d; x42; xe1; x4c; xcc].

(* v1.0.3_signed, unpatched *)
Definition bl_v1_0_3_signed_unpatched : list byte :=
  [xcb; x22; x25; x48; xa3; x9f; xf6; xcb; xe2; xae; x2f; x02; xc8; xd4; x31; xc9;
   xae; x0d; xf8; x50; xf8; x14; x44; x49; x11; xf5; x21; xb9; x5a; xb0; x2f; x4c].

(* v1.0.4, unpatched - SALT whitelabel *)
Definition bl_v1_0_4_unpatched : list byte :=
  [x77; x0b; x30; xaa; xa0; xbe; x88; x4e; xe8; x62; x18; x59; xf5; xd0; x55; x43;
   x7f; x89; x4a; x5c; x9c; x7c; xa2; x26; x35; xe7; x02; x4e; x05; x98; x57; xb7].

(** The allowlist as the design document reads it: a table of
    (digest, classification) pairs, the five "fixed" entries and the five
    "unpatched" ones.  The classifier below is the chain of comparisons of
    the source; the theorems relate the two. *)
Definition fixed_bootloaders : list (list byte) :=
  [bl_v1_0_0_fixed; bl_v1_0_1_fixed; bl_v1_0_3_fixed;
   bl_v1_0_3_signed_fixed; bl_v1_0_4_fixed].

Definition unpatched_bootloaders : list (list byte) :=
  [bl_v1_0_0_unpatched; bl_v1_0_1_unpatched; bl_v1_0_3_unpatched;
   bl_v1_0_3_signed_unpatched; bl_v1_0_4_unpatched].

Definition allowlist : list (list byte * BL_Kind) :=
  map (fun d => (d, BL_PATCH_APPLIED)) fixed_bootloaders ++
  map (fun d => (d, BL_HOTPATCHABLE)) unpatched_bootloaders.

(** ** The hot patch *)

Definition hotpatch_addr : Z := 0x802026c.

(** [static const char hotpatch[18]]: sixteen bytes are listed, eight
    [movs r0, r0]; the last two of the eighteen are left to the
    initialiser's default, zero. *)
Definition hotpatch : list byte :=
  [x00; x00;  (* movs r0, r0 *)
   x00; x00;  (* movs r0, r0 *)
   x00; x00;  (* movs r0, r0 *)
   x00; x00;  (* movs r0, r0 *)
   x00; x00;  (* movs r0, r0 *)
   x00; x00;  (* movs r0, r0 *)
   x00; x00;  (* movs r0, r0 *)
   x00; x00]  (* movs r0, r0 *)
  ++ [x00; x00].

Definition sizeof_hotpatch : nat := 18.

(** ** The board

    What [check_bootloader.c] includes but does not define: the digest
    source of [memory.h], the flash controller of [memory.h] and
    libopencm3's [flash.h], and the flash contents the processor sees in
    its address space.  [H] is the state of the hardware: the flash and
    its controller.  The digest source reads it; the five flash calls
    change it. *)
Class Board (H : Type) : Type := {
  (** [memory_bootloader_hash(buf)]: the bytes left in [buf] and the
      length returned *)
  board_bootloader_hash : H -> list byte * Z;
  board_memory_unlock : H -> H;
  board_flash_unlock : H -> H;
  (** [flash_program(address, data, len)] *)
  board_flash_program : Z -> list byte -> nat -> H -> H;
  board_flash_lock : H -> H;
  board_flash_clear_status_flags : H -> H;
  (** the byte at an address of the memory-mapped flash *)
  board_read : H -> Z -> byte
}.

(** The calls the program makes to code outside of its file, as an
    observer of the board sees them. *)
Inductive call : Type :=
| Call_memory_bootloader_hash
| Call_memory_unlock
| Call_flash_unlock
| Call_flash_program (address : Z) (data : list byte) (len : nat)
| Call_flash_lock
| Call_flash_clear_status_flags
| Call_layout_warning_static (msg : string)
| Call_system_halt.

Definition is_flash_call (c : call) : bool :=
  match c with
  | Call_memory_unlock | Call_flash_unlock | Call_flash_program _ _ _
  | Call_flash_lock | Call_flash_clear_status_flags => true
  | Call_memory_bootloader_hash | Call_layout_warning_static _
  | Call_system_halt => false
  end.

Definition flash_calls (t : list call) : list call := filter is_flash_call t.

(** The messages put on the display, oldest first. *)
Fixpoint warnings (t : list call) : list string :=
  match t with
  | [] => []
  | Call_layout_warning_static msg :: t' => msg :: warnings t'
  | _ :: t' => warnings t'
  end.

(** How a piece of the program ends: it returns a value to its caller,
    or it has called [system_halt], which does not return. *)
Inductive outcome (A : Type) : Type :=
| Returned (a : A)
| Halted.
Arguments Returned {A} a.
Arguments Halted {A}.

(** A run from a hardware state: how it ended, the hardware state it
    left, and the calls it made, oldest first. *)
Record run (H A : Type) : Type := Run {
  result : outcome A;
  flash : H;
  trace : list call
}.
Arguments Run {H A} _ _ _.
Arguments result {H A} _.
Arguments flash {H A} _.
Arguments trace {H A} _.

Definition M (H A : Type) : Type := H -> run H A.

Definition ret {H A} (a : A) : M H A := fun h => Run (Returned a) h [].

Definition bind {H A B} (c : M H A) (k : A -> M H B) : M H B :=
  fun h =>
    let r := c h in
    match result r with
    | Returned a =>
        let r' := k a (flash r) in
        Run (result r') (flash r') (trace r ++ trace r')
    | Halted => Run Halted (flash r) (trace r)
    end.

Declare Scope boot_scope.
Delimit Scope boot_scope with boot.
Notation "x <- c1 ;; c2" := (bind c1 (fun x => c2))
  (at level 61, c1 at next level, right associativity) : boot_scope.
Notation "' pat <- c1 ;; c2" := (bind c1 (fun x => match x with pat => c2 end))
  (at level 61, pat pattern, c1 at next level, right associativity) : boot_scope.
Notation "c1 ;; c2" := (bind c1 (fun _ => c2))
  (at level 61, right associativity) : boot_scope.

(** [read_flash h address n]: the [n] bytes the processor reads from
    [address] on. *)
Definition read_flash {H} `{Board H} (h : H) (address : Z) (n : nat) : list byte :=
  map (fun i => board_read h (address + Z.of_nat i)) (seq 0 n).

Section Firmware.
Context {H : Type} `{Board H}.

Local Open Scope boot_scope.

(** *** The collaborators, as the program calls them *)

Definition memory_bootloader_hash : M H (list byte * Z) :=
  fun h => Run (Returned (board_bootloader_hash h)) h [Call_memory_bootloader_hash].

Definition memory_unlock : M H unit :=
  fun h => Run (Returned tt) (board_memory_unlock h) [Call_memory_unlock].

Definition flash_unlock : M H unit :=
  fun h => Run (Returned tt) (board_flash_unlock h) [Call_flash_unlock].

Definition flash_program (address : Z) (data : list byte) (len : nat) : M H unit :=
  fun h => Run (Returned tt) (board_flash_program address data len h)
               [Call_flash_program address data len].

Definition flash_lock : M H unit :=
  fun h => Run (Returned tt) (board_flash_lock h) [Call_flash_lock].

Definition flash_clear_status_flags : M H unit :=
  fun h => Run (Returned tt) (board_flash_clear_status_flags h)
               [Call_flash_clear_status_flags].

Definition layout_warning_static (msg : string) : M H unit :=
  fun h => Run (Returned tt) h [Call_layout_warning_static msg].

Definition system_halt {A} : M H A :=
  fun h => Run Halted h [Call_system_halt].

(** A read through a pointer into the flash: no call is made. *)
Definition memory (address : Z) (n : nat) : M H (list byte) :=
  fun h => Run (Returned (read_flash h address n)) h [].

(** *** [check_bootloader_kind] *)

Definition check_bootloader_kind : M H BL_Kind :=
  '(bl_hash, len) <- memory_bootloader_hash ;;
  if negb (32 =? len) then ret BL_UNKNOWN

  (* Fixed bootloaders *)
  else if 0 =? memcmp bl_hash bl_v1_0_0_fixed 32 then ret BL_PATCH_APPLIED
  else if 0 =? memcmp bl_hash bl_v1_0_1_fixed 32 then ret BL_PATCH_APPLIED
  else if 0 =? memcmp bl_hash bl_v1_0_3_fixed 32 then ret BL_PATCH_APPLIED
  else if 0 =? memcmp bl_hash bl_v1_0_3_signed_fixed 32 then ret BL_PATCH_APPLIED
  else if 0 =? memcmp bl_hash bl_v1_0_4_fixed 32 then ret BL_PATCH_APPLIED

  (* Unpatched bootloaders *)
  else if 0 =? memcmp bl_hash bl_v1_0_0_unpatched 32 then ret BL_HOTPATCHABLE
  else if 0 =? memcmp bl_hash bl_v1_0_1_unpatched 32 then ret BL_HOTPATCHABLE
  else if 0 =? memcmp bl_hash bl_v1_0_3_unpatched 32 then ret BL_HOTPATCHABLE
  else if 0 =? memcmp bl_hash bl_v1_0_3_signed_unpatched 32 then ret BL_HOTPATCHABLE
  else if 0 =? memcmp bl_hash bl_v1_0_4_unpatched 32 then ret BL_HOTPATCHABLE

  else ret BL_UNKNOWN.

(** *** [apply_hotpatch] *)

Definition apply_hotpatch : M H bool :=
  (* Enable writing to the read-only sectors *)
  memory_unlock ;;
  flash_unlock ;;
  (* Write into the sector. *)
  flash_program hotpatch_addr hotpatch sizeof_hotpatch ;;
  (* Disallow writing to flash. *)
  flash_lock ;;
  (* Ignore the reported error. *)
  flash_clear_status_flags ;;
  (* Check for the hotpatch sequence *)
  at_hotpatch_addr <- memory hotpatch_addr sizeof_hotpatch ;;
  ret (memcmp at_hotpatch_addr hotpatch sizeof_hotpatch =? 0).

(** *** [check_bootloader]

    [check_bootloader_with kind] is the body of the function from the
    first [if] on, for the value [kind] of its local variable. *)

Definition check_bootloader_with (kind : BL_Kind) : M H unit :=
  if kind =? BL_HOTPATCHABLE then
    patched <- apply_hotpatch ;;
    if negb patched then
      layout_warning_static "Hotpatch failed. Contact support."%string ;;
      system_halt
    else ret tt
  else if kind =? BL_UNKNOWN then
    layout_warning_static "Unknown bootloader. Contact support."%string ;;
    system_halt
  else if kind =? BL_PATCH_APPLIED then
    (* do nothing, bootloader is already safe *)
    ret tt
  else
    layout_warning_static "B/L check failed. Reboot Device!"%string ;;
    system_halt.

Definition check_bootloader : M H unit :=
  kind <- check_bootloader_kind ;;
  check_bootloader_with kind.

End Firmware.

Arguments memcmp : simpl never.

(** ** What the theorems speak of *)

Section Observations.
Context {H : Type} `{Board H}.

(** The run ended in [system_halt] with exactly [msg] on the display. *)
Definition halts_with {A} (msg : string) (r : run H A) : Prop :=
  result r = Halted /\
  warnings (trace r) = [msg] /\
  exists t, trace r = t ++ [Call_layout_warning_static msg; Call_system_halt].

(** The run returned to its caller: nothing was displayed and
    [system_halt] was not called. *)
Definition continues (r : run H unit) : Prop :=
  result r = Returned tt /\
  warnings (trace r) = [] /\
  ~ In Call_system_halt (trace r).

(** The hardware state in which [apply_hotpatch] reads the flash back:
    the five flash calls applied to [h], the lock and the clearing of
    the status flags last. *)
Definition relocked (h : H) : H :=
  board_flash_clear_status_flags
    (board_flash_lock
       (board_flash_program hotpatch_addr hotpatch sizeof_hotpatch
          (board_flash_unlock (board_memory_unlock h)))).

(** The flash holds the patch at the patch address. *)
Definition hotpatch_present (h : H) : Prop :=
  read_flash h hotpatch_addr sizeof_hotpatch = hotpatch.

(** A board function that leaves every byte of the flash as it was. *)
Definition keeps_flash (f : H -> H) : Prop :=
  forall h a, board_read (f h) a = board_read h a.

(** The write of [apply_hotpatch] called in state [h] takes effect:
    right after [flash_program] the patch is in the flash. *)
Definition write_takes_effect (h : H) : Prop :=
  hotpatch_present
    (board_flash_program hotpatch_addr hotpatch sizeof_hotpatch
       (board_flash_unlock (board_memory_unlock h))).

(** A value of [enum BL_Kind] that is none of its enumerators. *)
Definition unnamed_kind (kind : BL_Kind) : Prop :=
  kind <> BL_UNKNOWN /\ kind <> BL_HOTPATCHABLE /\ kind <> BL_PATCH_APPLIED.
End Observations.

(** ** A simulated board

    An in-memory flash with the controller bits that matter to
    [apply_hotpatch], to run the program on concrete inputs.  A program
    operation is carried out when the controller is unlocked, the sector
    is not write-protected and no error flag is pending in the status
    register; otherwise the flash stays as it is and the error flag is
    raised. *)
Module SimFlash.

Record state : Type := {
  cells : Z -> byte;          (* the flash, by address *)
  digest : list byte * Z;     (* the digest source's answer *)
  cr_lock : bool;             (* controller locked *)
  wrp : bool;                 (* bootloader sectors write-protected *)
  sr_error : bool             (* an error flag is pending *)
}.

Definition store (c : Z -> byte) (address : Z) (data : list byte) (len : nat)
  : Z -> byte :=
  fun a =>
    if (address <=? a) && (a <? address + Z.of_nat len)
    then nth (Z.to_nat (a - address)) data x00
    else c a.

Definition sim_memory_unlock (s : state) : state :=
  {| cells := cells s; digest := digest s; cr_lock := cr_lock s;
     wrp := false; sr_error := sr_error s |}.

Definition sim_flash_unlock (s : state) : state :=
  {| cells := cells s; digest := digest s; cr_lock := false;
     wrp := wrp s; sr_error := sr_error s |}.

Definition sim_flash_program (address : Z) (data : list byte) (len : nat)
           (s : state) : state :=
  if cr_lock s || wrp s || sr_error s
  then {| cells := cells s; digest := digest s; cr_lock := cr_lock s;
          wrp := wrp s; sr_error := true |}
  else {| cells := store (cells s) address data len; digest := digest s;
          cr_lock := cr_lock s; wrp := wrp s; sr_error := false |}.

Definition sim_flash_lock (s : state) : state :=
  {| cells := cells s; digest := digest s; cr_lock := true;
     wrp := wrp s; sr_error := sr_error s |}.

Definition sim_flash_clear_status_flags (s : state) : state :=
  {| cells := cells s; digest := digest s; cr_lock := cr_lock s;
     wrp := wrp s; sr_error := false |}.

#[global] Instance sim_board : Board state := {|
  board_bootloader_hash := digest;
  board_memory_unlock := sim_memory_unlock;
  board_flash_unlock := sim_flash_unlock;
  board_flash_program := sim_flash_program;
  board_flash_lock := sim_flash_lock;
  board_flash_clear_status_flags := sim_flash_clear_status_flags;
  board_read := cells
|}.

(** A locked, write-protected device whose flash reads [fill]
    everywhere, with the digest source answering [d]. *)
Definition device (fill : byte) (d : list byte * Z) (err : bool) : state :=
  {| cells := fun _ => fill; digest := d; cr_lock := true; wrp := true;
     sr_error := err |}.

(** An erased flash, no error pending. *)
Definition fresh (d : list byte * Z) : state := device xff d false.

(** An erased flash with an error flag left pending by an earlier
    operation. *)
Definition stale_error (d : list byte * Z) : state := device xff d true.

(** A flash that already reads zero everywhere, with an error flag
    pending. *)
Definition zeroed_stale_error (d : list byte * Z) : state := device x00 d true.

End SimFlash.

(** ** Inputs for the simulated board *)

Definition repairable_device : SimFlash.state :=
  SimFlash.fresh (bl_v1_0_3_unpatched, 32).

Definition repairable_stale_error : SimFlash.state :=
  SimFlash.stale_error (bl_v1_0_0_unpatched, 32).

Definition zeroed_stale_error : SimFlash.state :=
  SimFlash.zeroed_stale_error (bl_v1_0_0_unpatched, 32).

Definition verified_device : SimFlash.state :=
  SimFlash.fresh (bl_v1_0_4_fixed, 32).

(** 32 bytes that are in no entry of the table. *)
Definition unlisted_digest : list byte := repeat x2a 32.

Definition unlisted_device : SimFlash.state :=
  SimFlash.fresh (unlisted_digest, 32).

(** The digest source reports 16 bytes, in a buffer that holds a digest
    of the table. *)
Definition short_digest_device : SimFlash.state :=
  SimFlash.fresh (bl_v1_0_0_fixed, 16).

Definition programmed (s : SimFlash.state) : SimFlash.state :=
  SimFlash.sim_flash_program hotpatch_addr hotpatch sizeof_hotpatch
    (SimFlash.sim_flash_unlock (SimFlash.sim_memory_unlock s)).

(** ** The flash of the design document *)

(** Modelled from the spec: what the flash calls of [memory.h] and
    libopencm3's [flash.h] do to the hardware, which no file of the
    sources shows.  The design document has the patcher lift the write
    protection of the target region, write the payload at the address and
    re-impose the protection; it has the hardware report an error flag
    that the patcher clears; and it allows for a write that is partial or
    reports an error.  So: the flash is an array of bytes; the sectors of
    the bootloader are read-only until [memory_unlock] and the controller
    is locked until [flash_unlock] and again from [flash_lock] on; a
    program operation is refused while either protection holds, and
    otherwise stores the data, except at the addresses whose byte cannot
    be changed; the error flag is raised by a refused or partial write
    and lowered by [flash_clear_status_flags]. *)
Module SpecFlash.

Record state : Type := {
  cells : Z -> byte;          (* the flash, by address *)
  digest : list byte * Z;     (* the digest source's answer *)
  read_only : bool;           (* bootloader sectors write-protected *)
  locked : bool;              (* controller locked *)
  stuck : Z -> bool;          (* addresses whose byte a write cannot change *)
  error : bool                (* the error flag of the status register *)
}.

Definition in_range (address : Z) (len : nat) (a : Z) : bool :=
  (address <=? a) && (a <? address + Z.of_nat len).

Definition written (s : state) (address : Z) (data : list byte) (len : nat)
  : Z -> byte :=
  fun a =>
    if in_range address len a && negb (stuck s a)
    then nth (Z.to_nat (a - address)) data x00
    else cells s a.

Definition partial (s : state) (address : Z) (len : nat) : bool :=
  existsb (fun i => stuck s (address + Z.of_nat i)) (seq 0 len).

(** Modelled from the spec: [memory_unlock], absent from the sources,
    lifts the write protection of the bootloader sectors. *)
Definition spec_memory_unlock (s : state) : state :=
  {| cells := cells s; digest := digest s; read_only := false;
     locked := locked s; stuck := stuck s; error := error s |}.

(** Modelled from the spec: [flash_unlock], absent from the sources,
    unlocks the controller. *)
Definition spec_flash_unlock (s : state) : state :=
  {| cells := cells s; digest := digest s; read_only := read_only s;
     locked := false; stuck := stuck s; error := error s |}.

(** Modelled from the spec: [flash_program], absent from the sources,
    writes the payload at the address when no protection holds, leaving
    the unchangeable bytes; refused or partial, it raises the error
    flag. *)
Definition spec_flash_program (address : Z) (data : list byte) (len : nat)
           (s : state) : state :=
  if read_only s || locked s
  then {| cells := cells s; digest := digest s; read_only := read_only s;
          locked := locked s; stuck := stuck s; error := true |}
  else {| cells := written s address data len; digest := digest s;
          read_only := read_only s; locked := locked s; stuck := stuck s;
          error := error s || partial s address len |}.

(** Modelled from the spec: [flash_lock], absent from the sources,
    re-imposes the lock of the controller. *)
Definition spec_flash_lock (s : state) : state :=
  {| cells := cells s; digest := digest s; read_only := read_only s;
     locked := true; stuck := stuck s; error := error s |}.

(** Modelled from the spec: [flash_clear_status_flags], absent from the
    sources, lowers the error flag. *)
Definition spec_flash_clear_status_flags (s : state) : state :=
  {| cells := cells s; digest := digest s; read_only := read_only s;
     locked := locked s; stuck := stuck s; error := false |}.

#[global] Instance spec_board : Board state := {|
  board_bootloader_hash := digest;
  board_memory_unlock := spec_memory_unlock;
  board_flash_unlock := spec_flash_unlock;
  board_flash_program := spec_flash_program;
  board_flash_lock := spec_flash_lock;
  board_flash_clear_status_flags := spec_flash_clear_status_flags;
  board_read := cells
|}.

(** A protected device whose flash reads [xff] everywhere, with the
    bytes at the addresses [bad] unchangeable. *)
Definition erased (bad : Z -> bool) (d : list byte * Z) : state :=
  {| cells := fun _ => xff; digest := d; read_only := true; locked := true;
     stuck := bad; error := false |}.

End SpecFlash.

(** An unpatched bootloader on a sound flash, and on a flash where the
    byte at 0x8020270 cannot be changed. *)
Definition sound_flash : SpecFlash.state :=
  SpecFlash.erased (fun _ => false) (bl_v1_0_1_unpatched, 32).

Definition flash_with_stuck_byte : SpecFlash.state :=
  SpecFlash.erased (fun a => a =? 0x8020270) (bl_v1_0_1_unpatched, 32).

(** * Properties *)

(** ** [memcmp] decides equality of the bytes it is given *)

Lemma uchar_inj (a b : byte) : uchar a = uchar b -> a = b.
Proof.
  unfold uchar. intros E. apply N2Z.inj in E.
  apply (f_equal Byte.of_N) in E.
  rewrite !Byte.of_to_N in E. now injection E.
Qed.

Lemma memcmp_cons (x y : byte) (s1 s2 : list byte) (n : nat) :
  memcmp (x :: s1) (y :: s2) (S n) =
  if uchar x =? uchar y then memcmp s1 s2 n else uchar x - uchar y.
Proof. reflexivity. Qed.

(** On two buffers of [n] bytes, [memcmp] is 0 exactly when they hold
    the same bytes. *)
Lemma memcmp_0_iff (n : nat) :
  forall s1 s2 : list byte,
    length s1 = n -> length s2 = n ->
    (memcmp s1 s2 n = 0 <-> s1 = s2).
Proof.
  induction n as [|n IH]; intros [|x s1] [|y s2] L1 L2; try discriminate.
  - split; reflexivity.
  - injection L1 as L1. injection L2 as L2.
    rewrite memcmp_cons.
    destruct (Z.eqb_spec (uchar x) (uchar y)) as [E|N].
    + apply uchar_inj in E. subst y.
      rewrite (IH s1 s2 L1 L2).
      split; [intros ->; reflexivity | intros E; now injection E].
    + split.
      * intros D. exfalso. apply N. lia.
      * intros E. injection E as -> _. now contradiction N.
Qed.

Lemma memcmp_differs (n : nat) (s1 s2 : list byte) :
  length s1 = n -> length s2 = n -> s1 <> s2 ->
  (0 =? memcmp s1 s2 n) = false.
Proof.
  intros L1 L2 D. apply Z.eqb_neq. intros E.
  apply D. apply (memcmp_0_iff n); auto.
Qed.

(** ** Membership in the allowlist, spelt out *)

Lemma allowlist_digests :
  map fst allowlist = fixed_bootloaders ++ unpatched_bootloaders.
Proof. reflexivity. Qed.

Lemma allowlist_length : length allowlist = 10%nat.
Proof. reflexivity. Qed.

Lemma allowlist_digest_length :
  forall d k, In (d, k) allowlist -> length d = 32%nat.
Proof.
  intros d k I. unfold allowlist in I; simpl in I.
  repeat (destruct I as [I|I]; [injection I as <- _; reflexivity|]).
  contradiction.
Qed.

Section FirmwareProperties.
Context {H : Type} `{Board H}.

(** *** How the three functions run *)

Lemma apply_hotpatch_run (h : H) :
  apply_hotpatch h =
  Run (Returned (memcmp (read_flash (relocked h) hotpatch_addr sizeof_hotpatch)
                        hotpatch sizeof_hotpatch =? 0))
      (relocked h)
      [Call_memory_unlock; Call_flash_unlock;
       Call_flash_program hotpatch_addr hotpatch sizeof_hotpatch;
       Call_flash_lock; Call_flash_clear_status_flags].
Proof. reflexivity. Qed.

Lemma read_flash_length (h : H) (a : Z) (n : nat) :
  length (read_flash h a n) = n.
Proof. unfold read_flash. now rewrite length_map, length_seq. Qed.

Lemma apply_hotpatch_result (h : H) :
  result (apply_hotpatch h) = Returned true <-> hotpatch_present (relocked h).
Proof.
  rewrite apply_hotpatch_run. cbn [result]. unfold hotpatch_present.
  rewrite <- (memcmp_0_iff sizeof_hotpatch)
    by (apply read_flash_length || reflexivity).
  rewrite <- Z.eqb_eq.
  split; [intros E; now injection E | intros ->; reflexivity].
Qed.

Lemma check_bootloader_kind_run (h : H) :
  exists kind,
    check_bootloader_kind h = Run (Returned kind) h [Call_memory_bootloader_hash] /\
    (kind = BL_UNKNOWN \/ kind = BL_HOTPATCHABLE \/ kind = BL_PATCH_APPLIED).
Proof.
  unfold check_bootloader_kind, bind, memory_bootloader_hash.
  cbn [result flash trace].
  destruct (board_bootloader_hash h) as [bl_hash len].
  repeat match goal with
         | |- context [if ?c then _ else _] => destruct c
         end;
    eexists; (split; [reflexivity | auto]).
Qed.

Lemma check_bootloader_run (h : H) (kind : BL_Kind) :
  check_bootloader_kind h = Run (Returned kind) h [Call_memory_bootloader_hash] ->
  check_bootloader h =
  Run (result (check_bootloader_with kind h))
      (flash (check_bootloader_with kind h))
      (Call_memory_bootloader_hash :: trace (check_bootloader_with kind h)).
Proof.
  intros E. unfold check_bootloader, bind. rewrite E. reflexivity.
Qed.

(** The four branches of [check_bootloader_with]. *)

Lemma with_hotpatchable (h : H) :
  check_bootloader_with BL_HOTPATCHABLE h =
  if memcmp (read_flash (relocked h) hotpatch_addr sizeof_hotpatch)
            hotpatch sizeof_hotpatch =? 0
  then Run (Returned tt) (relocked h) (trace (apply_hotpatch h))
  else Run Halted (relocked h)
           (trace (apply_hotpatch h) ++
            [Call_layout_warning_static "Hotpatch failed. Contact support.";
             Call_system_halt]).
Proof.
  unfold check_bootloader_with. rewrite Z.eqb_refl.
  unfold bind. rewrite apply_hotpatch_run. cbn [result flash trace].
  destruct (memcmp _ _ _ =? 0); reflexivity.
Qed.

Lemma with_unknown (h : H) :
  check_bootloader_with BL_UNKNOWN h =
  Run Halted h
      [Call_layout_warning_static "Unknown bootloader. Contact support.";
       Call_system_halt].
Proof. reflexivity. Qed.

Lemma with_patch_applied (h : H) :
  check_bootloader_with BL_PATCH_APPLIED h = Run (Returned tt) h [].
Proof. reflexivity. Qed.

Lemma with_unnamed (h : H) (kind : BL_Kind) :
  unnamed_kind kind ->
  check_bootloader_with kind h =
  Run Halted h
      [Call_layout_warning_static "B/L check failed. Reboot Device!";
       Call_system_halt].
Proof.
  intros (U & P & V). unfold check_bootloader_with.
  apply Z.eqb_neq in U, P, V. rewrite U, P, V. reflexivity.
Qed.

End FirmwareProperties.

(** ** The classifier *)

Section Classifier.
Context {H : Type} `{Board H}.

Lemma check_bootloader_kind_unfold (h : H) :
  result (check_bootloader_kind h) =
  result ((let '(bl_hash, len) := board_bootloader_hash h in
           if negb (32 =? len) then ret BL_UNKNOWN
           else if 0 =? memcmp bl_hash bl_v1_0_0_fixed 32 then ret BL_PATCH_APPLIED
           else if 0 =? memcmp bl_hash bl_v1_0_1_fixed 32 then ret BL_PATCH_APPLIED
           else if 0 =? memcmp bl_hash bl_v1_0_3_fixed 32 then ret BL_PATCH_APPLIED
           else if 0 =? memcmp bl_hash bl_v1_0_3_signed_fixed 32 then ret BL_PATCH_APPLIED
           else if 0 =? memcmp bl_hash bl_v1_0_4_fixed 32 then ret BL_PATCH_APPLIED
           else if 0 =? memcmp bl_hash bl_v1_0_0_unpatched 32 then ret BL_HOTPATCHABLE
           else if 0 =? memcmp bl_hash bl_v1_0_1_unpatched 32 then ret BL_HOTPATCHABLE
           else if 0 =? memcmp bl_hash bl_v1_0_3_unpatched 32 then ret BL_HOTPATCHABLE
           else if 0 =? memcmp bl_hash bl_v1_0_3_signed_unpatched 32 then ret BL_HOTPATCHABLE
           else if 0 =? memcmp bl_hash bl_v1_0_4_unpatched 32 then ret BL_HOTPATCHABLE
           else ret BL_UNKNOWN) h).
Proof.
  unfold check_bootloader_kind, bind, memory_bootloader_hash.
  cbn [result flash trace].
  destruct (board_bootloader_hash h) as [bl_hash len].
  reflexivity.
Qed.

(** C2: when the digest source hands back, with length 32, a digest of
    the allowlist, [check_bootloader_kind] returns the classification
    the table pairs it with: [BL_PATCH_APPLIED] for each of the five
    fixed digests and [BL_HOTPATCHABLE] for each of the five unpatched
    ones. *)
Theorem allowlisted_digest_kind (h : H) (d : list byte) (kind : BL_Kind) :
  In (d, kind) allowlist ->
  board_bootloader_hash h = (d, 32) ->
  result (check_bootloader_kind h) = Returned kind /\
  (In d fixed_bootloaders -> kind = BL_PATCH_APPLIED) /\
  (In d unpatched_bootloaders -> kind = BL_HOTPATCHABLE).
Proof.
  intros I E. rewrite check_bootloader_kind_unfold, E.
  unfold allowlist in I; simpl in I.
  repeat (destruct I as [I|I];
          [injection I as <- <-;
           split; [vm_compute; reflexivity|];
           split; intros J; simpl in J;
           repeat (destruct J as [J|J]; [now (discriminate J || reflexivity)|]);
           contradiction|]).
  contradiction.
Qed.

Lemma not_allowlisted_memcmp (d : list byte) :
  length d = 32%nat ->
  (forall e kind, In (e, kind) allowlist -> d <> e) ->
  forall e kind, In (e, kind) allowlist -> (0 =? memcmp d e 32) = false.
Proof.
  intros L N e kind I. apply memcmp_differs; auto.
  - eapply allowlist_digest_length; eassumption.
  - eapply N; eassumption.
Qed.

(** C3: a digest of 32 bytes that differs from each of the ten digests
    of the allowlist is classified [BL_UNKNOWN]. *)
Theorem unlisted_digest_unknown (h : H) (d : list byte) :
  board_bootloader_hash h = (d, 32) ->
  length d = 32%nat ->
  (forall e kind, In (e, kind) allowlist -> d <> e) ->
  result (check_bootloader_kind h) = Returned BL_UNKNOWN.
Proof.
  intros E L N. rewrite check_bootloader_kind_unfold, E.
  assert (A : forall e kind, In (e, kind) allowlist -> (0 =? memcmp d e 32) = false)
    by (apply not_allowlisted_memcmp; assumption).
  rewrite (A bl_v1_0_0_fixed BL_PATCH_APPLIED) by (simpl; tauto).
  rewrite (A bl_v1_0_1_fixed BL_PATCH_APPLIED) by (simpl; tauto).
  rewrite (A bl_v1_0_3_fixed BL_PATCH_APPLIED) by (simpl; tauto).
  rewrite (A bl_v1_0_3_signed_fixed BL_PATCH_APPLIED) by (simpl; tauto).
  rewrite (A bl_v1_0_4_fixed BL_PATCH_APPLIED) by (simpl; tauto).
  rewrite (A bl_v1_0_0_unpatched BL_HOTPATCHABLE) by (simpl; tauto).
  rewrite (A bl_v1_0_1_unpatched BL_HOTPATCHABLE) by (simpl; tauto).
  rewrite (A bl_v1_0_3_unpatched BL_HOTPATCHABLE) by (simpl; tauto).
  rewrite (A bl_v1_0_3_signed_unpatched BL_HOTPATCHABLE) by (simpl; tauto).
  rewrite (A bl_v1_0_4_unpatched BL_HOTPATCHABLE) by (simpl; tauto).
  reflexivity.
Qed.

(** C4: when the digest source reports a length other than 32,
    [check_bootloader_kind] returns [BL_UNKNOWN] whatever the buffer
    holds: the buffer is not looked at, so a buffer equal to a digest
    of the allowlist changes nothing. *)
Theorem wrong_length_unknown (h : H) (bl_hash : list byte) (len : Z) :
  board_bootloader_hash h = (bl_hash, len) ->
  len <> 32 ->
  check_bootloader_kind h =
  Run (Returned BL_UNKNOWN) h [Call_memory_bootloader_hash].
Proof.
  intros E N.
  unfold check_bootloader_kind, bind, memory_bootloader_hash.
  cbn [result flash trace]. rewrite E.
  assert (T : negb (32 =? len) = true).
  { apply negb_true_iff, Z.eqb_neq. intros <-. now apply N. }
  rewrite T. reflexivity.
Qed.

End Classifier.

(** ** The patcher *)

Section Patcher.
Context {H : Type} `{Board H}.

(** C5: [apply_hotpatch] returns true exactly when the 18 bytes at the
    patch address, read after the flash is locked again (and the status
    flags cleared), are the bytes of the patch.  Nothing else of the
    hardware state enters the result: two states whose read-back agrees
    give the same result, whatever status the write reported in each. *)
Theorem apply_hotpatch_judges_by_readback (h : H) :
  flash (apply_hotpatch h) = relocked h /\
  (result (apply_hotpatch h) = Returned true <->
   read_flash (relocked h) hotpatch_addr sizeof_hotpatch = hotpatch) /\
  (result (apply_hotpatch h) = Returned false <->
   read_flash (relocked h) hotpatch_addr sizeof_hotpatch <> hotpatch) /\
  (forall h' : H,
      read_flash (relocked h') hotpatch_addr sizeof_hotpatch =
      read_flash (relocked h) hotpatch_addr sizeof_hotpatch ->
      result (apply_hotpatch h') = result (apply_hotpatch h)).
Proof.
  split; [reflexivity|].
  split; [apply apply_hotpatch_result|].
  split.
  - pose proof (apply_hotpatch_result h) as T. unfold hotpatch_present in T.
    rewrite <- T. rewrite apply_hotpatch_run. cbn [result].
    destruct (memcmp _ _ _ =? 0); split; intros E; try reflexivity;
      try discriminate; try (intros _; discriminate).
    now contradiction E.
  - intros h' E. rewrite !apply_hotpatch_run. cbn [result]. now rewrite E.
Qed.

(** C6: every run of [apply_hotpatch] makes the same five calls in the
    same order, unlock ([memory_unlock], [flash_unlock]), program, lock,
    clear status flags, and then returns.  No call depends on what an
    earlier one did to the hardware, so the lock and the clearing happen
    also when the write fails or reports an error. *)
Theorem apply_hotpatch_calls (h : H) :
  trace (apply_hotpatch h) =
    [Call_memory_unlock; Call_flash_unlock;
     Call_flash_program hotpatch_addr hotpatch sizeof_hotpatch;
     Call_flash_lock; Call_flash_clear_status_flags] /\
  flash (apply_hotpatch h) =
    board_flash_clear_status_flags
      (board_flash_lock
         (board_flash_program 0x802026c (repeat x00 18) 18
            (board_flash_unlock (board_memory_unlock h)))) /\
  exists patched : bool, result (apply_hotpatch h) = Returned patched.
Proof.
  rewrite apply_hotpatch_run. cbn [result flash trace].
  split; [reflexivity|]. split; [reflexivity|]. eexists; reflexivity.
Qed.

Lemma read_flash_ext (h1 h2 : H) (a : Z) (n : nat) :
  (forall x, board_read h1 x = board_read h2 x) ->
  read_flash h1 a n = read_flash h2 a n.
Proof. intros E. unfold read_flash. apply map_ext. intros i. apply E. Qed.

Lemma relocked_present (h : H) :
  keeps_flash board_flash_lock ->
  keeps_flash board_flash_clear_status_flags ->
  write_takes_effect h ->
  hotpatch_present (relocked h).
Proof.
  intros KL KC W. unfold hotpatch_present, relocked.
  etransitivity; [|exact W].
  apply read_flash_ext. intros x. now rewrite KC, KL.
Qed.

(** On any board whose lock and status-clearing calls leave the flash
    contents alone: when the write takes effect in each of two
    successive runs of [apply_hotpatch], both return true and the bytes
    at the patch address after the second run are those after the first
    (the patch). *)
Lemma apply_hotpatch_again (h : H) :
  keeps_flash board_flash_lock ->
  keeps_flash board_flash_clear_status_flags ->
  write_takes_effect h ->
  write_takes_effect (flash (apply_hotpatch h)) ->
  result (apply_hotpatch h) = Returned true /\
  result (apply_hotpatch (flash (apply_hotpatch h))) = Returned true /\
  read_flash (flash (apply_hotpatch (flash (apply_hotpatch h))))
             hotpatch_addr sizeof_hotpatch =
  read_flash (flash (apply_hotpatch h)) hotpatch_addr sizeof_hotpatch /\
  read_flash (flash (apply_hotpatch h)) hotpatch_addr sizeof_hotpatch = hotpatch.
Proof.
  intros KL KC W1 W2.
  pose proof (relocked_present h KL KC W1) as P1.
  pose proof (relocked_present _ KL KC W2) as P2.
  repeat split.
  - now apply apply_hotpatch_result.
  - now apply apply_hotpatch_result.
  - change (flash (apply_hotpatch (flash (apply_hotpatch h))))
      with (relocked (flash (apply_hotpatch h))).
    rewrite P2. symmetry. exact P1.
  - exact P1.
Qed.

End Patcher.

(** ** The boot gate *)

Section BootGate.
Context {H : Type} `{Board H}.

Local Ltac kinds :=
  unfold BL_UNKNOWN, BL_HOTPATCHABLE, BL_PATCH_APPLIED in *;
  try discriminate; try lia.

Lemma gate_unknown (h : H) :
  check_bootloader_kind h = Run (Returned BL_UNKNOWN) h [Call_memory_bootloader_hash] ->
  check_bootloader h =
  Run Halted h
      [Call_memory_bootloader_hash;
       Call_layout_warning_static "Unknown bootloader. Contact support.";
       Call_system_halt].
Proof. intros E. now rewrite (check_bootloader_run h _ E). Qed.

Lemma gate_patch_applied (h : H) :
  check_bootloader_kind h =
    Run (Returned BL_PATCH_APPLIED) h [Call_memory_bootloader_hash] ->
  check_bootloader h = Run (Returned tt) h [Call_memory_bootloader_hash].
Proof. intros E. now rewrite (check_bootloader_run h _ E). Qed.

Lemma gate_hotpatchable (h : H) :
  check_bootloader_kind h =
    Run (Returned BL_HOTPATCHABLE) h [Call_memory_bootloader_hash] ->
  check_bootloader h =
  if memcmp (read_flash (relocked h) hotpatch_addr sizeof_hotpatch)
            hotpatch sizeof_hotpatch =? 0
  then Run (Returned tt) (relocked h)
           (Call_memory_bootloader_hash :: trace (apply_hotpatch h))
  else Run Halted (relocked h)
           (Call_memory_bootloader_hash :: trace (apply_hotpatch h) ++
            [Call_layout_warning_static "Hotpatch failed. Contact support.";
             Call_system_halt]).
Proof.
  intros E. rewrite (check_bootloader_run h _ E), with_hotpatchable.
  destruct (memcmp _ _ _ =? 0); reflexivity.
Qed.

Local Ltac observe :=
  unfold halts_with, continues; cbn [result flash trace warnings app In].

Local Ltac refute :=
  repeat match goal with
         | E : _ /\ _ |- _ => destruct E
         | E : _ \/ _ |- _ => destruct E
         | E : ex _ |- _ => destruct E
         end;
  try discriminate; try contradiction; kinds.

Local Ltac cases :=
  split; [|split]; split; intros P; try solve [refute]; try solve [intuition].

Local Ltac ended_after t :=
  repeat split; try (exists t; reflexivity); try (intros F; solve [refute]).

(** C1: with [kind] the value the classifier returns,
    [check_bootloader] halts behind the warning "Unknown bootloader.
    Contact support." exactly when [kind] is [BL_UNKNOWN]; it halts
    behind "Hotpatch failed. Contact support." exactly when [kind] is
    [BL_HOTPATCHABLE] and [apply_hotpatch] returns false; and it
    returns, nothing displayed and no halt, exactly when [kind] is
    [BL_PATCH_APPLIED], or is [BL_HOTPATCHABLE] with [apply_hotpatch]
    returning true. *)
Theorem check_bootloader_decision (h : H) :
  exists kind : BL_Kind,
    result (check_bootloader_kind h) = Returned kind /\
    (halts_with "Unknown bootloader. Contact support." (check_bootloader h)
     <-> kind = BL_UNKNOWN) /\
    (halts_with "Hotpatch failed. Contact support." (check_bootloader h)
     <-> kind = BL_HOTPATCHABLE /\ result (apply_hotpatch h) = Returned false) /\
    (continues (check_bootloader h)
     <-> kind = BL_PATCH_APPLIED \/
         (kind = BL_HOTPATCHABLE /\ result (apply_hotpatch h) = Returned true)).
Proof.
  destruct (check_bootloader_kind_run h) as (kind & E & K).
  exists kind. split; [now rewrite E|].
  destruct K as [-> | [-> | ->]].
  - rewrite (gate_unknown h E). observe. cases.
    ended_after [Call_memory_bootloader_hash].
  - rewrite (gate_hotpatchable h E), !apply_hotpatch_run.
    destruct (memcmp _ _ _ =? 0); observe; cases.
    + ended_after (@nil call).
    + ended_after
        [Call_memory_bootloader_hash; Call_memory_unlock; Call_flash_unlock;
         Call_flash_program hotpatch_addr hotpatch sizeof_hotpatch;
         Call_flash_lock; Call_flash_clear_status_flags].
  - rewrite (gate_patch_applied h E). observe. cases.
    ended_after (@nil call).
Qed.

(** C7: [check_bootloader] makes flash calls exactly when the
    classifier returns [BL_HOTPATCHABLE], and then they are the calls
    of one run of [apply_hotpatch]; when the classifier returns
    [BL_PATCH_APPLIED] or [BL_UNKNOWN] no flash call is made and the
    hardware is left in the state it was found in. *)
Theorem hotpatch_iff_hotpatchable (h : H) :
  exists kind : BL_Kind,
    result (check_bootloader_kind h) = Returned kind /\
    (flash_calls (trace (check_bootloader h)) <> [] <-> kind = BL_HOTPATCHABLE) /\
    (kind = BL_HOTPATCHABLE ->
     flash_calls (trace (check_bootloader h)) = trace (apply_hotpatch h) /\
     flash (check_bootloader h) = flash (apply_hotpatch h)) /\
    (kind = BL_PATCH_APPLIED \/ kind = BL_UNKNOWN ->
     flash_calls (trace (check_bootloader h)) = [] /\
     flash (check_bootloader h) = h).
Proof.
  destruct (check_bootloader_kind_run h) as (kind & E & K).
  exists kind. split; [now rewrite E|].
  destruct K as [-> | [-> | ->]].
  - rewrite (gate_unknown h E). cbn [result flash trace flash_calls filter is_flash_call].
    split; [|split].
    + split; [intros N; now contradiction N | kinds].
    + kinds.
    + intros _. split; reflexivity.
  - rewrite (gate_hotpatchable h E), !apply_hotpatch_run.
    destruct (memcmp _ _ _ =? 0);
      cbn [result flash trace flash_calls filter is_flash_call app];
      (split; [|split]);
      [ split; [reflexivity | discriminate]
      | intros _; split; reflexivity
      | intros [F|F]; kinds
      | split; [reflexivity | discriminate]
      | intros _; split; reflexivity
      | intros [F|F]; kinds ].
  - rewrite (gate_patch_applied h E). cbn [result flash trace flash_calls filter is_flash_call].
    split; [|split].
    + split; [intros N; now contradiction N | kinds].
    + kinds.
    + intros _. split; reflexivity.
Qed.

(** C10: [check_bootloader_kind] always returns, and what it returns
    is one of [BL_UNKNOWN], [BL_HOTPATCHABLE] and [BL_PATCH_APPLIED];
    so no run of [check_bootloader] reaches its last [else]: the
    warning "B/L check failed. Reboot Device!" is never displayed. *)
Theorem last_else_unreachable (h : H) :
  (exists kind : BL_Kind,
      result (check_bootloader_kind h) = Returned kind /\
      (kind = BL_UNKNOWN \/ kind = BL_HOTPATCHABLE \/ kind = BL_PATCH_APPLIED)) /\
  ~ In (Call_layout_warning_static "B/L check failed. Reboot Device!")
       (trace (check_bootloader h)).
Proof.
  destruct (check_bootloader_kind_run h) as (kind & E & K).
  split; [exists kind; split; [now rewrite E | exact K]|].
  destruct K as [-> | [-> | ->]].
  - rewrite (gate_unknown h E). cbn [trace In]. intros F; refute.
  - rewrite (gate_hotpatchable h E), !apply_hotpatch_run.
    destruct (memcmp _ _ _ =? 0); cbn [trace In app]; intros F; refute.
  - rewrite (gate_patch_applied h E). cbn [trace In]. intros F; refute.
Qed.

(** C9, as the code has it: a value of [kind] that is none of the three
    enumerators makes [check_bootloader] halt, as [BL_UNKNOWN] does and
    with the hardware untouched, but behind the warning "B/L check
    failed. Reboot Device!", not the one shown for [BL_UNKNOWN]. *)
Theorem unnamed_kind_halts (h : H) (kind : BL_Kind) :
  unnamed_kind kind ->
  check_bootloader_with kind h =
    Run Halted h
        [Call_layout_warning_static "B/L check failed. Reboot Device!";
         Call_system_halt] /\
  halts_with "B/L check failed. Reboot Device!" (check_bootloader_with kind h) /\
  result (check_bootloader_with kind h) = result (check_bootloader_with BL_UNKNOWN h) /\
  flash (check_bootloader_with kind h) = flash (check_bootloader_with BL_UNKNOWN h).
Proof.
  intros U. rewrite (with_unnamed h kind U), with_unknown. observe.
  repeat split. now exists (@nil call).
Qed.

End BootGate.

(** * The patcher on the flash of the design document *)

Lemma spec_relocked_cells (s : SpecFlash.state) :
  SpecFlash.cells (relocked s) =
  SpecFlash.written s hotpatch_addr hotpatch sizeof_hotpatch.
Proof. reflexivity. Qed.

Lemma spec_relocked_stuck (s : SpecFlash.state) :
  SpecFlash.stuck (relocked s) = SpecFlash.stuck s.
Proof. reflexivity. Qed.

(** A second run of [apply_hotpatch] changes no byte of the flash. *)
Lemma spec_relocked_twice (s : SpecFlash.state) (a : Z) :
  board_read (relocked (relocked s)) a = board_read (relocked s) a.
Proof.
  change (@board_read SpecFlash.state _) with SpecFlash.cells.
  rewrite (spec_relocked_cells (relocked s)).
  unfold SpecFlash.written at 1.
  rewrite spec_relocked_stuck, spec_relocked_cells.
  unfold SpecFlash.written.
  destruct (SpecFlash.in_range hotpatch_addr sizeof_hotpatch a
            && negb (SpecFlash.stuck s a)); reflexivity.
Qed.

Lemma spec_write_takes_effect (s : SpecFlash.state) :
  write_takes_effect s -> write_takes_effect (flash (apply_hotpatch s)).
Proof.
  unfold write_takes_effect, hotpatch_present. intros W.
  rewrite <- W at 2. apply read_flash_ext. intros a.
  exact (spec_relocked_twice s a).
Qed.

(** C8: on the flash of the design document [apply_hotpatch] is
    idempotent.  From every state of the flash (contents, protections,
    unchangeable bytes, error flag), a second run leaves every byte of the
    flash, and so the 18 bytes at the patch address, as the first run left
    them; and when the write takes effect, both runs return true. *)
Theorem apply_hotpatch_idempotent (s : SpecFlash.state) :
  read_flash (flash (apply_hotpatch (flash (apply_hotpatch s))))
             hotpatch_addr sizeof_hotpatch =
  read_flash (flash (apply_hotpatch s)) hotpatch_addr sizeof_hotpatch /\
  (forall a : Z,
      board_read (flash (apply_hotpatch (flash (apply_hotpatch s)))) a =
      board_read (flash (apply_hotpatch s)) a) /\
  (write_takes_effect s ->
   result (apply_hotpatch s) = Returned true /\
   result (apply_hotpatch (flash (apply_hotpatch s))) = Returned true).
Proof.
  assert (A : forall a : Z,
             board_read (flash (apply_hotpatch (flash (apply_hotpatch s)))) a =
             board_read (flash (apply_hotpatch s)) a)
    by (intros a; exact (spec_relocked_twice s a)).
  split; [apply read_flash_ext; exact A|]. split; [exact A|].
  intros W.
  assert (KL : keeps_flash (H := SpecFlash.state) board_flash_lock)
    by (intros h a; reflexivity).
  assert (KC : keeps_flash (H := SpecFlash.state) board_flash_clear_status_flags)
    by (intros h a; reflexivity).
  destruct (apply_hotpatch_again s KL KC W (spec_write_takes_effect s W))
    as (R1 & R2 & _).
  split; assumption.
Qed.

(** * The program on the simulated board *)

(** ** The scenarios of the design document *)

Example scenario_verified :
  check_bootloader verified_device =
  Run (Returned tt) verified_device [Call_memory_bootloader_hash].
Proof. reflexivity. Qed.

Example scenario_repaired :
  result (check_bootloader repairable_device) = Returned tt /\
  trace (check_bootloader repairable_device) =
    [Call_memory_bootloader_hash; Call_memory_unlock; Call_flash_unlock;
     Call_flash_program 0x802026c (repeat x00 18) 18;
     Call_flash_lock; Call_flash_clear_status_flags] /\
  read_flash (flash (check_bootloader repairable_device)) hotpatch_addr 18 =
    repeat x00 18.
Proof. repeat split; reflexivity. Qed.

Example scenario_unlisted :
  check_bootloader unlisted_device =
  Run Halted unlisted_device
      [Call_memory_bootloader_hash;
       Call_layout_warning_static "Unknown bootloader. Contact support.";
       Call_system_halt].
Proof. reflexivity. Qed.

Example scenario_short_digest :
  check_bootloader short_digest_device =
  Run Halted short_digest_device
      [Call_memory_bootloader_hash;
       Call_layout_warning_static "Unknown bootloader. Contact support.";
       Call_system_halt].
Proof. reflexivity. Qed.

Example scenario_readback_mismatch :
  result (check_bootloader repairable_stale_error) = Halted /\
  trace (check_bootloader repairable_stale_error) =
    [Call_memory_bootloader_hash; Call_memory_unlock; Call_flash_unlock;
     Call_flash_program 0x802026c (repeat x00 18) 18;
     Call_flash_lock; Call_flash_clear_status_flags;
     Call_layout_warning_static "Hotpatch failed. Contact support.";
     Call_system_halt] /\
  read_flash (flash (check_bootloader repairable_stale_error)) hotpatch_addr 18 =
    repeat xff 18.
Proof. repeat split; reflexivity. Qed.

(** ** The theorems at concrete inputs *)

Lemma allowlisted_digest_kind_at_v1_0_3_unpatched :
  In (bl_v1_0_3_unpatched, BL_HOTPATCHABLE) allowlist /\
  board_bootloader_hash repairable_device = (bl_v1_0_3_unpatched, 32) /\
  result (check_bootloader_kind repairable_device) = Returned 0xa1f35c78.
Proof.
  assert (I : In (bl_v1_0_3_unpatched, BL_HOTPATCHABLE) allowlist)
    by (simpl; tauto).
  split; [exact I|]. split; [reflexivity|].
  exact (proj1 (allowlisted_digest_kind repairable_device _ _ I eq_refl)).
Defined.

Lemma unlisted_digest_unknown_at_x2a :
  length unlisted_digest = 32%nat /\
  (forall e kind, In (e, kind) allowlist -> unlisted_digest <> e) /\
  result (check_bootloader_kind unlisted_device) = Returned 0.
Proof.
  assert (N : forall e kind, In (e, kind) allowlist -> unlisted_digest <> e).
  { intros e kind I. simpl in I.
    repeat (destruct I as [I|I]; [injection I as <- _; discriminate|]).
    contradiction. }
  split; [reflexivity|]. split; [exact N|].
  exact (unlisted_digest_unknown unlisted_device unlisted_digest eq_refl eq_refl N).
Defined.

Lemma wrong_length_unknown_at_16 :
  In bl_v1_0_0_fixed fixed_bootloaders /\
  board_bootloader_hash short_digest_device = (bl_v1_0_0_fixed, 16) /\
  result (check_bootloader_kind short_digest_device) = Returned 0.
Proof.
  assert (E : board_bootloader_hash short_digest_device = (bl_v1_0_0_fixed, 16))
    by reflexivity.
  assert (N : 16 <> 32) by discriminate.
  split; [simpl; tauto|]. split; [exact E|].
  rewrite (wrong_length_unknown short_digest_device bl_v1_0_0_fixed 16 E N).
  reflexivity.
Defined.

Lemma apply_hotpatch_judges_by_readback_at_error :
  SimFlash.sr_error (programmed zeroed_stale_error) = true /\
  SimFlash.sr_error (programmed repairable_device) = false /\
  read_flash (relocked zeroed_stale_error) hotpatch_addr sizeof_hotpatch =
  read_flash (relocked repairable_device) hotpatch_addr sizeof_hotpatch /\
  result (apply_hotpatch zeroed_stale_error) =
  result (apply_hotpatch repairable_device).
Proof.
  split; [reflexivity|]. split; [reflexivity|]. split; [reflexivity|].
  apply (proj2 (proj2 (proj2 (apply_hotpatch_judges_by_readback repairable_device)))).
  reflexivity.
Defined.

Lemma apply_hotpatch_again_at_repairable :
  write_takes_effect repairable_device /\
  result (apply_hotpatch repairable_device) = Returned true /\
  result (apply_hotpatch (flash (apply_hotpatch repairable_device))) = Returned true /\
  read_flash (flash (apply_hotpatch (flash (apply_hotpatch repairable_device))))
             hotpatch_addr sizeof_hotpatch = repeat x00 18.
Proof.
  assert (KL : keeps_flash (H := SimFlash.state) board_flash_lock)
    by (intros s a; reflexivity).
  assert (KC : keeps_flash (H := SimFlash.state) board_flash_clear_status_flags)
    by (intros s a; reflexivity).
  assert (W1 : write_takes_effect repairable_device) by reflexivity.
  assert (W2 : write_takes_effect (flash (apply_hotpatch repairable_device)))
    by reflexivity.
  destruct (apply_hotpatch_again repairable_device KL KC W1 W2) as (R1 & R2 & S & P).
  split; [exact W1|]. split; [exact R1|]. split; [exact R2|].
  rewrite S. exact P.
Defined.

Lemma unnamed_kind_halts_at_1 :
  unnamed_kind 1 /\
  check_bootloader_with 1 verified_device =
    Run Halted verified_device
        [Call_layout_warning_static "B/L check failed. Reboot Device!";
         Call_system_halt].
Proof.
  assert (U : unnamed_kind 1) by (repeat split; discriminate).
  split; [exact U|].
  exact (proj1 (unnamed_kind_halts verified_device 1 U)).
Defined.

(** ** Where the design document and the code part *)

(** C9 as stated fails: the value 1 is none of the three enumerators, and
    [check_bootloader] does not treat it as it treats [BL_UNKNOWN]: the
    warning displayed is another one. *)
Lemma unnamed_kind_not_as_unknown :
  unnamed_kind 1 /\
  warnings (trace (check_bootloader_with 1 verified_device)) =
    ["B/L check failed. Reboot Device!"%string] /\
  warnings (trace (check_bootloader_with BL_UNKNOWN verified_device)) =
    ["Unknown bootloader. Contact support."%string] /\
  ~ halts_with "Unknown bootloader. Contact support."
      (check_bootloader_with 1 verified_device) /\
  check_bootloader_with 1 verified_device <>
  check_bootloader_with BL_UNKNOWN verified_device.
Proof.
  split; [repeat split; discriminate|].
  split; [reflexivity|]. split; [reflexivity|]. split.
  - intros (_ & W & _). discriminate W.
  - intros E. apply (f_equal (fun r => warnings (trace r))) in E. discriminate E.
Qed.

(** * Further properties of the three functions *)

Section EndToEnd.
Context {H : Type} `{Board H}.

Lemma memcmp_test (d e : list byte) :
  length d = 32%nat -> length e = 32%nat ->
  ((0 =? memcmp d e 32) = true <-> d = e).
Proof.
  intros Ld Le. rewrite Z.eqb_eq.
  rewrite <- (memcmp_0_iff 32 d e Ld Le). split; intros E; now symmetry.
Qed.

Lemma fixed_not_unpatched (d : list byte) :
  In d fixed_bootloaders -> In d unpatched_bootloaders -> False.
Proof.
  intros F U. simpl in F, U.
  repeat (destruct F as [F|F]; [subst d|]); try contradiction;
    repeat (destruct U as [U|U]; [discriminate U|]); contradiction.
Qed.

Local Ltac compare_with e :=
  let T := fresh "T" in
  destruct (0 =? memcmp _ e 32) eqn:T;
  [ apply memcmp_test in T; [subst | assumption | reflexivity]
  | ].

Local Ltac not_equal T :=
  let E := fresh "E" in
  intros E; symmetry in E;
  apply memcmp_test in E; [congruence | assumption | reflexivity].

(** The four ways the classifier ends, by what the digest source
    answered. *)
Lemma check_bootloader_kind_cases (h : H) (d : list byte) (len : Z) :
  board_bootloader_hash h = (d, len) ->
  length d = 32%nat ->
  (len <> 32 /\ result (check_bootloader_kind h) = Returned BL_UNKNOWN) \/
  (len = 32 /\ In d fixed_bootloaders /\
   result (check_bootloader_kind h) = Returned BL_PATCH_APPLIED) \/
  (len = 32 /\ In d unpatched_bootloaders /\
   result (check_bootloader_kind h) = Returned BL_HOTPATCHABLE) \/
  (len = 32 /\ ~ In d (fixed_bootloaders ++ unpatched_bootloaders) /\
   result (check_bootloader_kind h) = Returned BL_UNKNOWN).
Proof.
  intros E L. rewrite check_bootloader_kind_unfold, E.
  destruct (Z.eqb_spec 32 len) as [<-|N]; cbn [negb].
  2: { left. split; [congruence | reflexivity]. }
  right.
  compare_with bl_v1_0_0_fixed; [left; repeat split; simpl; tauto|].
  compare_with bl_v1_0_1_fixed; [left; repeat split; simpl; tauto|].
  compare_with bl_v1_0_3_fixed; [left; repeat split; simpl; tauto|].
  compare_with bl_v1_0_3_signed_fixed; [left; repeat split; simpl; tauto|].
  compare_with bl_v1_0_4_fixed; [left; repeat split; simpl; tauto|].
  compare_with bl_v1_0_0_unpatched; [right; left; repeat split; simpl; tauto|].
  compare_with bl_v1_0_1_unpatched; [right; left; repeat split; simpl; tauto|].
  compare_with bl_v1_0_3_unpatched; [right; left; repeat split; simpl; tauto|].
  compare_with bl_v1_0_3_signed_unpatched; [right; left; repeat split; simpl; tauto|].
  compare_with bl_v1_0_4_unpatched; [right; left; repeat split; simpl; tauto|].
  right; right. split; [reflexivity|]. split; [|reflexivity].
  intros I. simpl in I.
  repeat (destruct I as [I|I]; [revert I; not_equal T|]).
  contradiction.
Qed.


Local Ltac kinds_differ :=
  unfold BL_UNKNOWN, BL_HOTPATCHABLE, BL_PATCH_APPLIED in *;
  try discriminate; try congruence.

(** X1: for a digest source that fills the 32-byte buffer, the classifier
    returns [BL_PATCH_APPLIED] exactly when the length reported is 32 and
    the buffer is one of the five fixed digests, [BL_HOTPATCHABLE]
    exactly when the length is 32 and the buffer is one of the five
    unpatched digests, and [BL_UNKNOWN] exactly in the remaining cases. *)
Theorem check_bootloader_kind_iff (h : H) (d : list byte) (len : Z) :
  board_bootloader_hash h = (d, len) ->
  length d = 32%nat ->
  (result (check_bootloader_kind h) = Returned BL_PATCH_APPLIED <->
   len = 32 /\ In d fixed_bootloaders) /\
  (result (check_bootloader_kind h) = Returned BL_HOTPATCHABLE <->
   len = 32 /\ In d unpatched_bootloaders) /\
  (result (check_bootloader_kind h) = Returned BL_UNKNOWN <->
   len <> 32 \/ ~ In d (fixed_bootloaders ++ unpatched_bootloaders)).
Proof.
  intros E L.
  pose proof (fixed_not_unpatched d) as X.
  assert (D1 : @Returned BL_Kind BL_UNKNOWN <> Returned BL_PATCH_APPLIED)
    by kinds_differ.
  assert (D2 : @Returned BL_Kind BL_UNKNOWN <> Returned BL_HOTPATCHABLE)
    by kinds_differ.
  assert (D3 : @Returned BL_Kind BL_PATCH_APPLIED <> Returned BL_HOTPATCHABLE)
    by kinds_differ.
  destruct (check_bootloader_kind_cases h d len E L)
    as [(N & R) | [(-> & F & R) | [(-> & U & R) | (-> & N & R)]]];
    rewrite R; rewrite in_app_iff in *;
    intuition congruence.
Qed.


Lemma check_bootloader_kind_run_of (h : H) (kind : BL_Kind) :
  result (check_bootloader_kind h) = Returned kind ->
  check_bootloader_kind h = Run (Returned kind) h [Call_memory_bootloader_hash].
Proof.
  intros R. destruct (check_bootloader_kind_run h) as (k & E & _).
  rewrite E in R. cbn [result] in R. injection R as ->. exact E.
Qed.

Lemma wrong_length_run (h : H) (d : list byte) (len : Z) :
  board_bootloader_hash h = (d, len) ->
  len <> 32 ->
  result (check_bootloader_kind h) = Returned BL_UNKNOWN.
Proof.
  intros E N. rewrite check_bootloader_kind_unfold, E.
  destruct (Z.eqb_spec 32 len) as [Q|_]; [now contradiction N|reflexivity].
Qed.

Lemma patch_test (h : H) :
  (memcmp (read_flash (relocked h) hotpatch_addr sizeof_hotpatch)
          hotpatch sizeof_hotpatch =? 0) = true <->
  hotpatch_present (relocked h).
Proof.
  unfold hotpatch_present. rewrite Z.eqb_eq.
  apply memcmp_0_iff; [apply read_flash_length | reflexivity].
Qed.

(** X2: [check_bootloader] returns to its caller only for an allowlisted
    digest of length 32.  For a fixed bootloader it has made no call but
    the one to the digest source and the hardware is as it was; for an
    unpatched one the hardware is in the state the five flash calls left
    and the patch is in the flash at the patch address. *)
Theorem check_bootloader_returns_only_safe (h : H) (d : list byte) (len : Z) :
  board_bootloader_hash h = (d, len) ->
  length d = 32%nat ->
  result (check_bootloader h) = Returned tt ->
  len = 32 /\
  ((In d fixed_bootloaders /\
    check_bootloader h = Run (Returned tt) h [Call_memory_bootloader_hash]) \/
   (In d unpatched_bootloaders /\
    flash (check_bootloader h) = relocked h /\
    hotpatch_present (flash (check_bootloader h)))).
Proof.
  intros E L R.
  destruct (check_bootloader_kind_cases h d len E L)
    as [(N & K) | [(-> & F & K) | [(-> & U & K) | (-> & N & K)]]];
    apply check_bootloader_kind_run_of in K.
  - rewrite (gate_unknown h K) in R. discriminate R.
  - split; [reflexivity|]. left. split; [exact F|].
    apply (gate_patch_applied h K).
  - split; [reflexivity|]. right. split; [exact U|].
    rewrite (gate_hotpatchable h K) in *.
    destruct (memcmp _ _ _ =? 0) eqn:T; [|discriminate R].
    cbn [flash]. split; [reflexivity|]. now apply patch_test.
  - rewrite (gate_unknown h K) in R. discriminate R.
Qed.

(** X3: when the digest source reports a length other than 32, or fills
    the buffer with 32 bytes that are none of the ten digests,
    [check_bootloader] calls the digest source, displays "Unknown
    bootloader. Contact support." and halts: it makes no other call and
    leaves the hardware as it found it. *)
Theorem rejected_digest_halts (h : H) (d : list byte) (len : Z) :
  board_bootloader_hash h = (d, len) ->
  len <> 32 \/
  (length d = 32%nat /\ ~ In d (fixed_bootloaders ++ unpatched_bootloaders)) ->
  check_bootloader h =
  Run Halted h
      [Call_memory_bootloader_hash;
       Call_layout_warning_static "Unknown bootloader. Contact support.";
       Call_system_halt].
Proof.
  intros E [N | (L & N)]; apply gate_unknown, check_bootloader_kind_run_of.
  - now apply (wrong_length_run h d len).
  - destruct (check_bootloader_kind_cases h d len E L)
      as [(_ & K) | [(_ & F & _) | [(_ & U & _) | (_ & _ & K)]]];
      try exact K; exfalso; apply N, in_or_app; auto.
Qed.

(** X4: whatever value [kind] holds, one of the enumerators or not,
    [check_bootloader_with] either returns with nothing displayed and no
    halt, and then [kind] is [BL_PATCH_APPLIED] with the hardware as it
    was or [BL_HOTPATCHABLE] with the patch in the flash; or it displays
    one warning, calls [system_halt] right after it and ends there. *)
Theorem check_bootloader_with_fail_closed (h : H) (kind : BL_Kind) :
  (continues (check_bootloader_with kind h) /\
   ((kind = BL_PATCH_APPLIED /\ flash (check_bootloader_with kind h) = h) \/
    (kind = BL_HOTPATCHABLE /\
     hotpatch_present (flash (check_bootloader_with kind h))))) \/
  (exists msg : string, halts_with msg (check_bootloader_with kind h)).
Proof.
  destruct (Z.eq_dec kind BL_HOTPATCHABLE) as [->|NH].
  { rewrite with_hotpatchable, apply_hotpatch_run. cbn [trace].
    destruct (memcmp _ _ _ =? 0) eqn:T.
    - left. split.
      + unfold continues. cbn [result trace warnings In]. repeat split.
        intros F. repeat (destruct F as [F|F]; [discriminate F|]). contradiction.
      + right. split; [reflexivity|]. cbn [flash]. now apply patch_test.
    - right. eexists. unfold halts_with. cbn [result trace warnings app].
      repeat split.
      now exists [Call_memory_unlock; Call_flash_unlock;
                  Call_flash_program hotpatch_addr hotpatch sizeof_hotpatch;
                  Call_flash_lock; Call_flash_clear_status_flags]. }
  destruct (Z.eq_dec kind BL_UNKNOWN) as [->|NU].
  { right. rewrite with_unknown. eexists. unfold halts_with.
    cbn [result trace warnings]. repeat split. now exists (@nil call). }
  destruct (Z.eq_dec kind BL_PATCH_APPLIED) as [->|NP].
  { left. rewrite with_patch_applied. unfold continues.
    cbn [result trace warnings In flash]. repeat split; auto. }
  right. rewrite (with_unnamed h kind) by (repeat split; assumption).
  eexists. unfold halts_with. cbn [result trace warnings].
  repeat split. now exists (@nil call).
Qed.


Lemma unpatched_length (d : list byte) :
  In d unpatched_bootloaders -> length d = 32%nat.
Proof.
  intros U. simpl in U.
  repeat (destruct U as [U|U]; [subst d; reflexivity|]). contradiction.
Qed.

(** X5: for each of the five unpatched digests, returned with length 32,
    [check_bootloader] makes the five flash calls once, in the order of
    [apply_hotpatch], and the hardware is left in the state they
    produce.  When the patch is then in the flash it returns without a
    further call; when it is not, the warning "Hotpatch failed. Contact
    support." and the halt come after the flash has been locked and the
    status flags cleared. *)
Theorem unpatched_digest_runs (h : H) (d : list byte) :
  board_bootloader_hash h = (d, 32) ->
  In d unpatched_bootloaders ->
  (hotpatch_present (relocked h) /\
   check_bootloader h =
   Run (Returned tt) (relocked h)
       [Call_memory_bootloader_hash; Call_memory_unlock; Call_flash_unlock;
        Call_flash_program hotpatch_addr hotpatch sizeof_hotpatch;
        Call_flash_lock; Call_flash_clear_status_flags]) \/
  (~ hotpatch_present (relocked h) /\
   check_bootloader h =
   Run Halted (relocked h)
       [Call_memory_bootloader_hash; Call_memory_unlock; Call_flash_unlock;
        Call_flash_program hotpatch_addr hotpatch sizeof_hotpatch;
        Call_flash_lock; Call_flash_clear_status_flags;
        Call_layout_warning_static "Hotpatch failed. Contact support.";
        Call_system_halt]).
Proof.
  intros E U. pose proof (unpatched_length d U) as L.
  assert (K : result (check_bootloader_kind h) = Returned BL_HOTPATCHABLE).
  { destruct (check_bootloader_kind_cases h d 32 E L)
      as [(N & _) | [(_ & F & _) | [(_ & _ & K) | (_ & N & _)]]].
    - now contradiction N.
    - exfalso. eapply fixed_not_unpatched; eassumption.
    - exact K.
    - exfalso. apply N, in_or_app. now right. }
  apply check_bootloader_kind_run_of in K.
  rewrite (gate_hotpatchable h K), apply_hotpatch_run. cbn [trace app].
  pose proof (patch_test h) as P.
  destruct (memcmp _ _ _ =? 0).
  - left. split; [now apply P | reflexivity].
  - right. split; [|reflexivity]. intros Q. apply P in Q. discriminate Q.
Qed.

(** X6: the only write [check_bootloader] ever asks of the flash is the
    18 zero bytes of the patch at 0x802026c, and it asks for it only when
    the classifier has returned [BL_HOTPATCHABLE]. *)
Theorem only_the_hotpatch_is_programmed
        (h : H) (address : Z) (data : list byte) (len : nat) :
  In (Call_flash_program address data len) (trace (check_bootloader h)) ->
  address = 0x802026c /\ data = repeat x00 18 /\ len = 18%nat /\
  result (check_bootloader_kind h) = Returned BL_HOTPATCHABLE.
Proof.
  intros I.
  destruct (check_bootloader_kind_run h) as (kind & E & [-> | [-> | ->]]).
  - rewrite (gate_unknown h E) in I. cbn [trace In] in I.
    repeat (destruct I as [I|I]; [discriminate I|]). contradiction.
  - rewrite E. cbn [result].
    rewrite (gate_hotpatchable h E), apply_hotpatch_run in I.
    destruct (memcmp _ _ _ =? 0); cbn [trace In app] in I;
      repeat (destruct I as [I|I];
              [first [discriminate I
                     | injection I as <- <- <-; repeat split; reflexivity]|]);
      contradiction.
  - rewrite (gate_patch_applied h E) in I. cbn [trace In] in I.
    repeat (destruct I as [I|I]; [discriminate I|]). contradiction.
Qed.

Lemma read_flash_nth (h : H) (a : Z) (n i : nat) (x : byte) :
  (i < n)%nat ->
  nth i (read_flash h a n) x = board_read h (a + Z.of_nat i).
Proof.
  intros Hi. unfold read_flash.
  rewrite (nth_indep _ x (board_read h (a + Z.of_nat 0)))
    by now rewrite length_map, length_seq.
  rewrite (map_nth (fun i => board_read h (a + Z.of_nat i))).
  now rewrite seq_nth.
Qed.

Lemma read_flash_all (h : H) (a : Z) (n : nat) (x : byte) :
  read_flash h a n = repeat x n <->
  forall i, (i < n)%nat -> board_read h (a + Z.of_nat i) = x.
Proof.
  split.
  - intros E i Hi. rewrite <- (read_flash_nth h a n i x Hi), E.
    apply nth_repeat.
  - intros A. apply (nth_ext _ _ x x).
    + now rewrite read_flash_length, repeat_length.
    + intros i Hi. rewrite read_flash_length in Hi.
      rewrite read_flash_nth, nth_repeat by assumption. now apply A.
Qed.

(** X7: [apply_hotpatch] returns true exactly when each of the 18
    addresses 0x802026c .. 0x802027d reads zero in the state it leaves:
    the two bytes after the sixteen that the initialiser of [hotpatch]
    lists are compared as well. *)
Theorem apply_hotpatch_true_iff_zeroes (h : H) :
  result (apply_hotpatch h) = Returned true <->
  forall a : Z,
    0x802026c <= a < 0x802027e ->
    board_read (flash (apply_hotpatch h)) a = x00.
Proof.
  rewrite apply_hotpatch_result. unfold hotpatch_present.
  change (flash (apply_hotpatch h)) with (relocked h).
  change hotpatch with (repeat x00 sizeof_hotpatch).
  rewrite read_flash_all. unfold hotpatch_addr, sizeof_hotpatch. split.
  - intros A a Ha.
    replace a with (0x802026c + Z.of_nat (Z.to_nat (a - 0x802026c))) by lia.
    apply A. lia.
  - intros A i Hi. apply A. lia.
Qed.

End EndToEnd.

(** ** The further properties at concrete inputs *)

Lemma check_bootloader_kind_iff_at_v1_0_3_unpatched :
  board_bootloader_hash repairable_device = (bl_v1_0_3_unpatched, 32) /\
  length bl_v1_0_3_unpatched = 32%nat /\
  In bl_v1_0_3_unpatched unpatched_bootloaders /\
  result (check_bootloader_kind repairable_device) = Returned BL_HOTPATCHABLE.
Proof.
  assert (E : board_bootloader_hash repairable_device = (bl_v1_0_3_unpatched, 32))
    by reflexivity.
  assert (L : length bl_v1_0_3_unpatched = 32%nat) by reflexivity.
  assert (U : In bl_v1_0_3_unpatched unpatched_bootloaders) by (simpl; tauto).
  split; [exact E|]. split; [exact L|]. split; [exact U|].
  apply (proj1 (proj2 (check_bootloader_kind_iff repairable_device _ _ E L))).
  split; [reflexivity | exact U].
Defined.

Lemma check_bootloader_returns_only_safe_at_repairable :
  result (check_bootloader repairable_device) = Returned tt /\
  In bl_v1_0_3_unpatched unpatched_bootloaders /\
  hotpatch_present (flash (check_bootloader repairable_device)).
Proof.
  assert (E : board_bootloader_hash repairable_device = (bl_v1_0_3_unpatched, 32))
    by reflexivity.
  assert (L : length bl_v1_0_3_unpatched = 32%nat) by reflexivity.
  assert (R : result (check_bootloader repairable_device) = Returned tt)
    by reflexivity.
  split; [exact R|].
  destruct (check_bootloader_returns_only_safe repairable_device _ _ E L R)
    as (_ & [(F & _) | (U & _ & P)]).
  - exfalso. simpl in F.
    repeat (destruct F as [F|F]; [discriminate F|]). contradiction.
  - split; [exact U | exact P].
Defined.

Lemma rejected_digest_halts_at_16_and_x2a :
  check_bootloader short_digest_device =
    Run Halted short_digest_device
        [Call_memory_bootloader_hash;
         Call_layout_warning_static "Unknown bootloader. Contact support.";
         Call_system_halt] /\
  ~ In unlisted_digest (fixed_bootloaders ++ unpatched_bootloaders) /\
  check_bootloader unlisted_device =
    Run Halted unlisted_device
        [Call_memory_bootloader_hash;
         Call_layout_warning_static "Unknown bootloader. Contact support.";
         Call_system_halt].
Proof.
  assert (E1 : board_bootloader_hash short_digest_device = (bl_v1_0_0_fixed, 16))
    by reflexivity.
  assert (N1 : 16 <> 32) by discriminate.
  assert (E2 : board_bootloader_hash unlisted_device = (unlisted_digest, 32))
    by reflexivity.
  assert (N2 : ~ In unlisted_digest (fixed_bootloaders ++ unpatched_bootloaders)).
  { intros I. simpl in I.
    repeat (destruct I as [I|I]; [discriminate I|]). contradiction. }
  split; [|split].
  - exact (rejected_digest_halts short_digest_device _ _ E1 (or_introl N1)).
  - exact N2.
  - exact (rejected_digest_halts unlisted_device _ _ E2
             (or_intror (conj eq_refl N2))).
Defined.

Lemma unpatched_digest_runs_at_stale_error :
  In bl_v1_0_0_unpatched unpatched_bootloaders /\
  ~ hotpatch_present (relocked repairable_stale_error) /\
  result (check_bootloader repairable_stale_error) = Halted /\
  warnings (trace (check_bootloader repairable_stale_error)) =
    ["Hotpatch failed. Contact support."%string].
Proof.
  assert (E : board_bootloader_hash repairable_stale_error =
              (bl_v1_0_0_unpatched, 32)) by reflexivity.
  assert (U : In bl_v1_0_0_unpatched unpatched_bootloaders) by (simpl; tauto).
  split; [exact U|].
  destruct (unpatched_digest_runs repairable_stale_error _ E U)
    as [(P & _) | (N & R)].
  - exfalso. vm_compute in P. discriminate P.
  - split; [exact N|]. rewrite R. split; reflexivity.
Defined.

Lemma only_the_hotpatch_is_programmed_at_repairable :
  In (Call_flash_program 0x802026c (repeat x00 18) 18)
     (trace (check_bootloader repairable_device)) /\
  result (check_bootloader_kind repairable_device) = Returned BL_HOTPATCHABLE.
Proof.
  assert (I : In (Call_flash_program 0x802026c (repeat x00 18) 18)
                 (trace (check_bootloader repairable_device))).
  { right; right; right; left. reflexivity. }
  split; [exact I|].
  exact (proj2 (proj2 (proj2
           (only_the_hotpatch_is_programmed repairable_device _ _ _ I)))).
Defined.

(** ** The patcher run twice on the flash of the design document *)

Lemma apply_hotpatch_idempotent_at_sound_flash :
  write_takes_effect sound_flash /\
  result (apply_hotpatch sound_flash) = Returned true /\
  result (apply_hotpatch (flash (apply_hotpatch sound_flash))) = Returned true /\
  read_flash (flash (apply_hotpatch (flash (apply_hotpatch sound_flash))))
             hotpatch_addr sizeof_hotpatch =
  read_flash (flash (apply_hotpatch sound_flash)) hotpatch_addr sizeof_hotpatch.
Proof.
  assert (W : write_takes_effect sound_flash) by reflexivity.
  destruct (apply_hotpatch_idempotent sound_flash) as (S & _ & B).
  destruct (B W) as (R1 & R2).
  split; [exact W|]. split; [exact R1|]. split; [exact R2 | exact S].
Defined.

Example partial_write_twice :
  result (apply_hotpatch flash_with_stuck_byte) = Returned false /\
  result (apply_hotpatch (flash (apply_hotpatch flash_with_stuck_byte))) =
    Returned false /\
  read_flash (flash (apply_hotpatch flash_with_stuck_byte)) hotpatch_addr 18 =
    [x00; x00; x00; x00; xff; x00; x00; x00; x00;
     x00; x00; x00; x00; x00; x00; x00; x00; x00] /\
  read_flash (flash (apply_hotpatch (flash (apply_hotpatch flash_with_stuck_byte))))
             hotpatch_addr 18 =
  read_flash (flash (apply_hotpatch flash_with_stuck_byte)) hotpatch_addr 18.
Proof. repeat split; reflexivity. Qed.
